(** * Server cards of the servers view: row card and hero card

    A shallow embedding of
    [www/views/servers_view/server_list_item/index.ts] (the data shape and
    the event names) and of the server card module built on it
    ([isConnectedState], [getSharedComponents], [ServerRowCard.render],
    [ServerHeroCard.render]).

    A lit template [html`...`] is a list of fixed strings and a list of
    values that fill its holes.  The fixed strings never change, so a
    template is modelled as the record of the values of its holes, in the
    order of the source.  Event handlers act on the outside world only by
    calling [dispatchEvent], [preventDefault] and
    [stopImmediatePropagation]; an action is modelled as the list of those
    calls, in order, next to its result.  The text lit writes for a hole in
    child position ([child_text]) and the listeners that hear a dispatched
    event ([delivered]) follow lit and the DOM. *)

From Stdlib Require Import String List Bool.
Import ListNotations.
Open Scope string_scope.

Set Implicit Arguments.

(** ** server_list_item/index.ts *)

(** [enum ServerListItemEvent]: the members and their string values. *)
Inductive ServerListItemEvent : Type :=
| CONNECT
| DISCONNECT
| FORGET
| RENAME.

Definition ServerListItemEvent_value (e : ServerListItemEvent) : string :=
  match e with
  | CONNECT => "ConnectPressed"
  | DISCONNECT => "DisconnectPressed"
  | FORGET => "ForgetPressed"
  | RENAME => "ShowServerRename"
  end.

(** The connection indicator is another module of the application
    ([../server_connection_indicator]).  The cards use its enumeration of
    connection states, three of its members by name, and the string a
    member turns into inside a template literal. *)
Class ServerConnectionIndicator : Type := {
  ServerConnectionState : Type;
  ServerConnectionState_eq_dec :
    forall a b : ServerConnectionState, {a = b} + {a <> b};
  CONNECTING : ServerConnectionState;
  CONNECTED : ServerConnectionState;
  RECONNECTING : ServerConnectionState;
  ServerConnectionState_value : ServerConnectionState -> string
}.

(** A [Ref<T>] of lit: [value] is undefined until the element is rendered. *)
Record Ref (T : Type) : Type := mkRef { value : option T }.

Definition createRef {T : Type} : Ref T := {| value := None |}.

(** The method [show] of the menu class, read off a menu element without
    binding it: the same function whichever element it is read from. *)
Inductive MenuMethod : Type :=
| show.

(** ** Values and effects *)

(** The value of [c && v] for a boolean [c]: [false], or [v]. *)
Inductive FalseOr (A : Type) : Type :=
| JSFalse
| JSValue (a : A).

Arguments JSFalse {A}.

Definition js_and {A : Type} (c : bool) (v : A) : FalseOr A :=
  if c then JSValue v else JSFalse.

(** [Boolean(v)] for a value that is a string or undefined. *)
Definition Boolean (v : option string) : bool :=
  match v with
  | None => false
  | Some EmptyString => false
  | Some (String _ _) => true
  end.

(** [new CustomEvent(type, {detail: {serverId}, bubbles, composed})]. *)
Record EventDetail : Type := { serverId : string }.

Record CustomEvent : Type := {
  type : string;
  detail : EventDetail;
  bubbles : bool;
  composed : bool
}.

Record KeyboardEvent : Type := { key : string }.

Inductive Call : Type :=
| dispatchEvent (e : CustomEvent)
| preventDefault (e : KeyboardEvent)
| stopImmediatePropagation (e : KeyboardEvent).

(** An action returns a result and leaves the calls it made. *)
Definition Action (A : Type) : Type := (A * list Call)%type.

Definition ret {A : Type} (a : A) : Action A := (a, []).

Definition bind {A B : Type} (c : Action A) (k : A -> Action B) : Action B :=
  let (a, made) := c in
  let (b, made') := k a in
  (b, (made ++ made')%list).

Definition call (c : Call) : Action unit := (tt, [c]).

Definition calls {A : Type} (c : Action A) : list Call := snd c.

Notation "c1 ;; c2" := (bind c1 (fun _ => c2))
  (at level 61, right associativity).

(** The events an action dispatched, in order. *)
Fixpoint dispatched_of (made : list Call) : list CustomEvent :=
  match made with
  | [] => []
  | dispatchEvent e :: rest => e :: dispatched_of rest
  | _ :: rest => dispatched_of rest
  end.

Definition dispatched {A : Type} (c : Action A) : list CustomEvent :=
  dispatched_of (calls c).

(** lit writes the value of a hole in child position as text: a string as
    it is, the boolean [false] as the text 'false'. *)
Definition child_text (v : FalseOr string) : string :=
  match v with
  | JSFalse => "false"
  | JSValue s => s
  end.

(** The two forms of a call of [dispatchEvent]: [dispatcher(event)], a
    function called on nothing, and [element.dispatchEvent(event)]. *)
Inductive CallForm : Type :=
| bare_call
| method_call.

Inductive Receiver : Type :=
| on_window
| on_card.

(** A method of the DOM called on nothing runs on the global object. *)
Definition receiver (form : CallForm) : Receiver :=
  match form with
  | bare_call => on_window
  | method_call => on_card
  end.

(** Where a listener can stand: on the card, on an element that contains
    the card, or on the window. *)
Inductive Place : Type :=
| card_element
| containing_element
| global_window.

(** Whether a listener hears an event dispatched on [on].  An event
    dispatched on the window is heard there only.  An event dispatched on
    the card is heard on the card, and further up when it bubbles; past a
    shadow root that lies between the card and the listener only when it
    is composed too. *)
Definition delivered (on : Receiver) (e : CustomEvent) (listener : Place)
           (behind_shadow_root : bool) : bool :=
  match on, listener with
  | on_window, global_window => true
  | on_window, _ => false
  | on_card, card_element => true
  | on_card, _ => bubbles e && (composed e || negb behind_shadow_root)
  end.

(** A listener takes no argument ([() => ...]) or the keyboard event. *)
Definition Listener : Type := unit -> Action unit.
Definition KeyListener : Type := KeyboardEvent -> Action unit.

Section ServerCard.

Context {indicator : ServerConnectionIndicator}.
Context {Menu : Type}.

(** [interface ServerListItem].  [errorMessageId] is optional; [name] is
    read with [??], so it may be null or undefined: [None] stands for both. *)
Record ServerListItem : Type := {
  disabled : bool;
  errorMessageId : option string;
  isOutlineServer : bool;
  address : string;
  id : string;
  name : option string;
  connectionState : ServerConnectionState
}.

(** [interface ServerListItemElement], as the cards implement it. *)
Record ServerListItemElement : Type := {
  server : ServerListItem;
  rootPath : string;
  localizer : string -> string;
  menu : Ref Menu
}.

(** ** The shared components *)

(** [[CONNECTING, CONNECTED, RECONNECTING].includes(connectionState)] *)
Definition isConnectedState (connectionState : ServerConnectionState) : bool :=
  existsb
    (fun member =>
       if ServerConnectionState_eq_dec member connectionState
       then true else false)
    [CONNECTING; CONNECTED; RECONNECTING].

Record Messages : Type := {
  serverName : string;
  error : FalseOr string;
  connectButton : string
}.

Record Dispatchers : Type := {
  beginRename : Listener;
  forget : Listener;
  connectToggle : Listener
}.

(** The holes of the three shared templates. *)
Record MetadataText : Type := {
  metadata_serverName : string;
  metadata_address : string
}.

Record MenuTemplate : Type := {
  menu_button_click : option MenuMethod;
  menu_ref : Ref Menu;
  menu_rename_click : Listener;
  menu_rename_text : string;
  menu_forget_click : Listener;
  menu_forget_text : string
}.

Record Footer : Type := {
  footer_error : FalseOr string;
  footer_button_label : string;
  footer_button_click : Listener;
  footer_button_disabled : bool
}.

Record Elements : Type := {
  metadataText : MetadataText;
  menuTemplate : MenuTemplate;
  footer : Footer
}.

Record SharedComponents : Type := {
  messages : Messages;
  dispatchers : Dispatchers;
  elements : Elements
}.

(** The [dispatchEvent] taken from the element. *)
Definition dispatcher (e : CustomEvent) : Action unit :=
  call (dispatchEvent e).

(** [getSharedComponents] takes the method off the element by destructuring
    ([dispatchEvent: dispatcher]) and every dispatcher calls it as
    [dispatcher(new CustomEvent(...))]. *)
Definition dispatcher_call : CallForm := bare_call.

Definition hasErrorMessage (server : ServerListItem) : bool :=
  Boolean (errorMessageId server).

Definition getMessages (el : ServerListItemElement) : Messages :=
  let server := server el in
  {| serverName :=
       match name server with
       | Some explicit => explicit
       | None =>
           localizer el
             (if isOutlineServer server
              then "server-default-name-outline"
              else "server-default-name")
       end;
     error :=
       (* [hasErrorMessage && localizer(server.errorMessageId)]: with no
          key the left operand is false and is the result *)
       match errorMessageId server with
       | Some key => js_and (hasErrorMessage server) (localizer el key)
       | None => JSFalse
       end;
     connectButton :=
       localizer el
         (if isConnectedState (connectionState server)
          then "disconnect-button-label"
          else "connect-button-label") |}.

Definition getDispatchers (el : ServerListItemElement) : Dispatchers :=
  let server := server el in
  {| beginRename := fun _ =>
       dispatcher
         {| type := ServerListItemEvent_value RENAME;
            detail := {| serverId := id server |};
            bubbles := true; composed := true |};
     forget := fun _ =>
       dispatcher
         {| type := ServerListItemEvent_value FORGET;
            detail := {| serverId := id server |};
            bubbles := true; composed := true |};
     connectToggle := fun _ =>
       dispatcher
         {| type :=
              ServerListItemEvent_value
                (if isConnectedState (connectionState server)
                 then DISCONNECT else CONNECT);
            detail := {| serverId := id server |};
            bubbles := true; composed := true |} |}.

Definition getSharedComponents (el : ServerListItemElement)
  : SharedComponents :=
  let server := server el in
  let messages := getMessages el in
  let dispatchers := getDispatchers el in
  {| messages := messages;
     dispatchers := dispatchers;
     elements :=
       {| metadataText :=
            {| metadata_serverName := serverName messages;
               metadata_address := address server |};
          menuTemplate :=
            {| menu_button_click :=
                 match value (menu el) with
                 | Some _ => Some show
                 | None => None
                 end;
               menu_ref := menu el;
               menu_rename_click := beginRename dispatchers;
               menu_rename_text := localizer el "server-rename";
               menu_forget_click := forget dispatchers;
               menu_forget_text := localizer el "server-forget" |};
          footer :=
            {| footer_error := error messages;
               footer_button_label := connectButton messages;
               footer_button_click := connectToggle dispatchers;
               footer_button_disabled := hasErrorMessage server |} |} |}.

(** ** The row card *)

Record RowCardTemplate : Type := {
  row_indicator_connection_state : ServerConnectionState;
  row_indicator_root_path : string;
  row_metadataText : MetadataText;
  row_menu : MenuTemplate;
  row_footer : Footer
}.

Definition ServerRowCard_render (this : ServerListItemElement)
  : RowCardTemplate :=
  let elements := elements (getSharedComponents this) in
  {| row_indicator_connection_state := connectionState (server this);
     row_indicator_root_path := rootPath this;
     row_metadataText := metadataText elements;
     row_menu := menuTemplate elements;
     row_footer := footer elements |}.

(** ** The hero card *)

Record HeroCardTemplate : Type := {
  hero_metadataText : MetadataText;
  hero_menu : MenuTemplate;
  hero_indicator_click : FalseOr Listener;
  hero_indicator_keydown : KeyListener;
  hero_indicator_connection_state : ServerConnectionState;
  hero_indicator_id : string;
  hero_indicator_root_path : string;
  hero_indicator_title : string;
  hero_label_for : string;
  hero_label_text : string;
  hero_footer : Footer
}.

Definition connectToggleKeyboardDispatcher (dispatchers : Dispatchers)
  : KeyListener :=
  fun event =>
    call (preventDefault event) ;;
    call (stopImmediatePropagation event) ;;
    if String.eqb (key event) "Enter"
    then connectToggle dispatchers tt
    else ret tt.

Definition ServerHeroCard_render (this : ServerListItemElement)
  : HeroCardTemplate :=
  let shared := getSharedComponents this in
  let elements := elements shared in
  let dispatchers := dispatchers shared in
  let messages := messages shared in
  let connectionStatusText :=
    localizer this
      (ServerConnectionState_value (connectionState (server this))
         ++ "-server-state") in
  {| hero_metadataText := metadataText elements;
     hero_menu := menuTemplate elements;
     hero_indicator_click :=
       js_and (negb (Boolean (errorMessageId (server this))))
              (connectToggle dispatchers);
     hero_indicator_keydown := connectToggleKeyboardDispatcher dispatchers;
     hero_indicator_connection_state := connectionState (server this);
     hero_indicator_id := connectButton messages;
     hero_indicator_root_path := rootPath this;
     hero_indicator_title := connectionStatusText;
     hero_label_for := connectButton messages;
     hero_label_text := connectionStatusText;
     hero_footer := footer elements |}.

(** ** The cards as constructed *)

(** Both classes declare [menu: Ref<Menu> = createRef()]; [server],
    [rootPath] and [localizer] are properties the containing view sets. *)
Definition ServerRowCard (server : ServerListItem) (rootPath : string)
           (localizer : string -> string) : ServerListItemElement :=
  {| server := server;
     rootPath := rootPath;
     localizer := localizer;
     menu := createRef |}.

Definition ServerHeroCard (server : ServerListItem) (rootPath : string)
           (localizer : string -> string) : ServerListItemElement :=
  {| server := server;
     rootPath := rootPath;
     localizer := localizer;
     menu := createRef |}.

(** ** User input *)

(** A click runs the listener bound to [@click] when it is a function; a
    binding that is [false] runs nothing. *)
Definition click (bound : FalseOr Listener) : Action unit :=
  match bound with
  | JSValue listener => listener tt
  | JSFalse => ret tt
  end.

(** A key press runs the listener bound to [@keydown] on its event. *)
Definition keydown (bound : KeyListener) (event : KeyboardEvent)
  : Action unit :=
  bound event.

End ServerCard.

(** ** A concrete connection indicator and sample inputs *)

(** Modelled from the spec: the members of [ServerConnectionState].  The
    enumeration is declared in [server_connection_indicator], which is not
    among the sources; the data model lists disconnected, connecting,
    connected, reconnecting and disconnecting. *)
Inductive SpecConnectionState : Type :=
| connecting
| connected
| reconnecting
| disconnecting
| disconnected.

Definition SpecConnectionState_eq_dec (a b : SpecConnectionState)
  : {a = b} + {a <> b}.
Proof. decide equality. Defined.

Definition SpecConnectionState_value (s : SpecConnectionState) : string :=
  match s with
  | connecting => "connecting"
  | connected => "connected"
  | reconnecting => "reconnecting"
  | disconnecting => "disconnecting"
  | disconnected => "disconnected"
  end.

#[export] Instance spec_indicator : ServerConnectionIndicator := {|
  ServerConnectionState := SpecConnectionState;
  ServerConnectionState_eq_dec := SpecConnectionState_eq_dec;
  CONNECTING := connecting;
  CONNECTED := connected;
  RECONNECTING := reconnecting;
  ServerConnectionState_value := SpecConnectionState_value
|}.

Module Sample.

(** A localizer that shows the key it was asked for. *)
Definition bracket (messageID : string) : string :=
  "[" ++ messageID ++ "]".

Definition item (errorMessageId : option string) (name : option string)
           (connectionState : SpecConnectionState) (disabled : bool)
  : ServerListItem :=
  {| disabled := disabled;
     errorMessageId := errorMessageId;
     isOutlineServer := true;
     address := "192.0.2.7:443";
     id := "server-7";
     name := name;
     connectionState := connectionState |}.

Definition card (server : ServerListItem)
  : ServerListItemElement (Menu := unit) :=
  {| server := server;
     rootPath := "/";
     localizer := bracket;
     menu := createRef |}.

Definition request (event : ServerListItemEvent) : CustomEvent :=
  {| type := ServerListItemEvent_value event;
     detail := {| serverId := "server-7" |};
     bubbles := true;
     composed := true |}.

(** The connect/disconnect toggle of the card around a server item. *)
Definition toggle (server : ServerListItem) : Action unit :=
  connectToggle (dispatchers (getSharedComponents (card server))) tt.

(** A lookup that differs from [bracket] on the default name only. *)
Definition no_default_name (messageID : string) : string :=
  if String.eqb messageID "server-default-name-outline"
  then "?"
  else bracket messageID.

(** A localizer with one text for every key. *)
Definition one_text (messageID : string) : string := "Toggle".

Definition Enter : KeyboardEvent := {| key := "Enter" |}.
Definition Space : KeyboardEvent := {| key := " " |}.

End Sample.

(** ** Properties *)

Section ServerCardProperties.

Context {indicator : ServerConnectionIndicator}.
Context {Menu : Type}.

Implicit Types (el : ServerListItemElement (Menu := Menu)).
Implicit Types (st : ServerConnectionState).

(** The set {connecting, connected, reconnecting}. *)
Definition connected_ish st : Prop :=
  st = CONNECTING \/ st = CONNECTED \/ st = RECONNECTING.

(** A request event: one of the four names, the
    id of the server item as its payload, bubbling and composed. *)
Definition request_for (item : ServerListItem) (e : CustomEvent) : Prop :=
  In (type e)
     ["ConnectPressed"; "DisconnectPressed"; "ForgetPressed";
      "ShowServerRename"] /\
  detail e = {| serverId := id item |} /\
  bubbles e = true /\
  composed e = true.

(** The key of the default name of a server item. *)
Definition default_name_key (item : ServerListItem) : string :=
  if isOutlineServer item
  then "server-default-name-outline"
  else "server-default-name".

(** An error key that counts: present and not the empty string. *)
Definition error_key (item : ServerListItem) (k : string) : Prop :=
  errorMessageId item = Some k /\ k <> "".

(** Two server items that differ at most in [disabled]. *)
Definition same_but_disabled (a b : ServerListItem) : Prop :=
  errorMessageId a = errorMessageId b /\
  isOutlineServer a = isOutlineServer b /\
  address a = address b /\
  id a = id b /\
  name a = name b /\
  connectionState a = connectionState b.

(** The same card around another server item. *)
Definition with_server el (item : ServerListItem) : ServerListItemElement :=
  {| server := item;
     rootPath := rootPath el;
     localizer := localizer el;
     menu := menu el |}.

(** The same card with another localizer. *)
Definition with_localizer el (lookup : string -> string)
  : ServerListItemElement :=
  {| server := server el;
     rootPath := rootPath el;
     localizer := lookup;
     menu := menu el |}.

(** The message keys the shared components look up for a server item. *)
Definition shared_keys (item : ServerListItem) : list string :=
  ((match name item with
    | Some _ => []
    | None => [default_name_key item]
    end) ++
   (match errorMessageId item with
    | Some (String c rest) => [String c rest]
    | _ => []
    end) ++
   [if isConnectedState (connectionState item)
    then "disconnect-button-label"
    else "connect-button-label";
    "server-rename";
    "server-forget"])%list.

(** The hero card also looks up the caption of the connection state. *)
Definition hero_keys (item : ServerListItem) : list string :=
  (ServerConnectionState_value (connectionState item) ++ "-server-state")
    :: shared_keys item.

(** The click listeners a row card binds: the two menu entries and the
    button of the footer. *)
Definition row_click_listeners (t : RowCardTemplate (Menu := Menu))
  : list Listener :=
  [menu_rename_click (row_menu t);
   menu_forget_click (row_menu t);
   footer_button_click (row_footer t)].

(** The hero card binds the same three. *)
Definition hero_click_listeners (t : HeroCardTemplate (Menu := Menu))
  : list Listener :=
  [menu_rename_click (hero_menu t);
   menu_forget_click (hero_menu t);
   footer_button_click (hero_footer t)].

(** A listener that raises one request for the item and does nothing else. *)
Definition raises_one_request (item : ServerListItem) (listener : Listener)
  : Prop :=
  exists e, calls (listener tt) = [dispatchEvent e] /\ request_for item e.

Lemma isConnectedState_true st :
  isConnectedState st = true <-> connected_ish st.
Proof.
  unfold isConnectedState, connected_ish; simpl.
  destruct (ServerConnectionState_eq_dec CONNECTING st) as [e1 | n1];
    destruct (ServerConnectionState_eq_dec CONNECTED st) as [e2 | n2];
    destruct (ServerConnectionState_eq_dec RECONNECTING st) as [e3 | n3];
    simpl; split; intro H; auto; try discriminate H.
  destruct H as [H | [H | H]]; symmetry in H; contradiction.
Qed.

Lemma isConnectedState_false st :
  isConnectedState st = false <-> ~ connected_ish st.
Proof.
  rewrite <- isConnectedState_true.
  destruct (isConnectedState st); split; intro H; auto; try discriminate.
  exfalso; apply H; reflexivity.
Qed.

Lemma connected_ish_dec st : {connected_ish st} + {~ connected_ish st}.
Proof.
  destruct (isConnectedState st) eqn:E.
  - left; apply isConnectedState_true; exact E.
  - right; apply isConnectedState_false; exact E.
Qed.

(** What the toggle dispatches, whatever the state. *)
Lemma connectToggle_calls el :
  calls (connectToggle (dispatchers (getSharedComponents el)) tt) =
  [dispatchEvent
     {| type :=
          ServerListItemEvent_value
            (if isConnectedState (connectionState (server el))
             then DISCONNECT else CONNECT);
        detail := {| serverId := id (server el) |};
        bubbles := true;
        composed := true |}].
Proof. reflexivity. Qed.

(** C1: the connect/disconnect toggle dispatches one event; it is the
    DisconnectPressed event if and only if the connection state is one of
    connecting, connected, reconnecting, and the ConnectPressed event for
    every other connection state. *)
Theorem connectToggle_event_by_state el :
  let fired :=
    dispatched (connectToggle (dispatchers (getSharedComponents el)) tt) in
  length fired = 1 /\
  (map type fired = ["DisconnectPressed"] <->
     connected_ish (connectionState (server el))) /\
  (map type fired = ["ConnectPressed"] <->
     ~ connected_ish (connectionState (server el))).
Proof.
  cbv zeta. unfold dispatched. rewrite connectToggle_calls. simpl.
  split; [reflexivity |].
  rewrite <- isConnectedState_false, <- isConnectedState_true.
  destruct (isConnectedState (connectionState (server el))); simpl;
    repeat split; intro H; try reflexivity; discriminate.
Qed.

(** C6, as the code has it: the label of the connect/disconnect button,
    the label hole of the button in the footer of the row card and of the
    hero card, is the localizer applied to 'disconnect-button-label' when
    the connection state is one of connecting, connected, reconnecting,
    and to 'connect-button-label' otherwise; when the localizer gives the
    two keys different strings, the label is the first of them if and
    only if the state is one of the three. *)
Theorem button_label_by_state el :
  let label := connectButton (messages (getSharedComponents el)) in
  let state := connectionState (server el) in
  footer_button_label (row_footer (ServerRowCard_render el)) = label /\
  footer_button_label (hero_footer (ServerHeroCard_render el)) = label /\
  (connected_ish state -> label = localizer el "disconnect-button-label") /\
  (~ connected_ish state -> label = localizer el "connect-button-label") /\
  (localizer el "disconnect-button-label" <>
   localizer el "connect-button-label" ->
   (label = localizer el "disconnect-button-label" <-> connected_ish state) /\
   (label = localizer el "connect-button-label" <-> ~ connected_ish state)).
Proof.
  cbv zeta.
  split; [reflexivity |]. split; [reflexivity |].
  rewrite <- isConnectedState_false, <- isConnectedState_true. simpl.
  destruct (isConnectedState (connectionState (server el)));
    repeat split; intros; try reflexivity; try discriminate; try congruence.
Qed.

(** C7: every event dispatched by the request actions (rename, forget,
    connect or disconnect) is one of ConnectPressed, DisconnectPressed,
    ForgetPressed, ShowServerRename, carries the id of the server item as
    its serverId, and is created with bubbles and composed both true; each
    action dispatches exactly one event.  Dispatched on the card such an
    event is heard on every element that contains the card; the bare call
    of the dispatchers runs on the window, and no containing element hears
    any of them. *)
Theorem requests_are_dispatched_on_window el :
  let actions := dispatchers (getSharedComponents el) in
  let raised :=
    (dispatched (beginRename actions tt) ++
     dispatched (forget actions tt) ++
     dispatched (connectToggle actions tt))%list in
  length raised = 3 /\
  Forall (request_for (server el)) raised /\
  Forall
    (fun e =>
       forall behind_shadow_root,
         delivered (receiver method_call) e containing_element
                   behind_shadow_root = true /\
         delivered (receiver dispatcher_call) e containing_element
                   behind_shadow_root = false /\
         delivered (receiver dispatcher_call) e card_element
                   behind_shadow_root = false /\
         delivered (receiver dispatcher_call) e global_window
                   behind_shadow_root = true)
    raised.
Proof.
  cbv zeta. unfold dispatched. rewrite connectToggle_calls. simpl.
  split; [reflexivity |]. split.
  - repeat apply Forall_cons; try apply Forall_nil;
      unfold request_for; simpl; try tauto.
    destruct (isConnectedState (connectionState (server el))); simpl; tauto.
  - repeat apply Forall_cons; try apply Forall_nil;
      intro behind; simpl; auto.
Qed.

(** C9: the keyboard handler of the hero card's connection indicator calls
    preventDefault and stopImmediatePropagation on every key event, then
    runs the connect/disconnect toggle exactly when the key is 'Enter';
    every other key dispatches no event. *)
Theorem keydown_toggles_on_Enter_only el (event : KeyboardEvent) :
  let handler := hero_indicator_keydown (ServerHeroCard_render el) in
  let toggle := connectToggle (dispatchers (getSharedComponents el)) in
  (exists rest,
     calls (keydown handler event) =
     preventDefault event :: stopImmediatePropagation event :: rest /\
     ((key event = "Enter" /\ rest = calls (toggle tt)) \/
      (key event <> "Enter" /\ rest = []))) /\
  (dispatched (keydown handler event) = dispatched (toggle tt) /\
   dispatched (toggle tt) <> [] <->
   key event = "Enter") /\
  (dispatched (keydown handler event) = [] <-> key event <> "Enter").
Proof.
  cbv zeta. unfold keydown, dispatched. simpl.
  unfold connectToggleKeyboardDispatcher. simpl.
  destruct (String.eqb_spec (key event) "Enter") as [e | n]; simpl.
  - split; [| split].
    + eexists; split; [reflexivity |].
      left; split; [exact e | reflexivity].
    + split; [intros _; exact e |].
      intros _; split; [reflexivity | discriminate].
    + split; [discriminate | intro H; contradiction].
  - split; [| split].
    + eexists; split; [reflexivity |].
      right; split; [exact n | reflexivity].
    + split; [intros [H _]; discriminate H | intro H; contradiction].
    + split; [intros _; exact n | reflexivity].
Qed.

Lemma serverName_cases el :
  serverName (messages (getSharedComponents el)) =
  match name (server el) with
  | Some explicit => explicit
  | None => localizer el (default_name_key (server el))
  end.
Proof. reflexivity. Qed.

(** C5: the displayed server name is the explicit name of the item when it
    has one; otherwise it is the localized default,
    localizer('server-default-name-outline') when isOutlineServer is true
    and localizer('server-default-name') when it is false.  The one name
    hole of the metadata text, in the row card and in the hero card, holds
    that string. *)
Theorem serverName_explicit_or_default el :
  let shown := serverName (messages (getSharedComponents el)) in
  (forall explicit, name (server el) = Some explicit -> shown = explicit) /\
  (name (server el) = None -> isOutlineServer (server el) = true ->
   shown = localizer el "server-default-name-outline") /\
  (name (server el) = None -> isOutlineServer (server el) = false ->
   shown = localizer el "server-default-name") /\
  metadata_serverName (row_metadataText (ServerRowCard_render el)) = shown /\
  metadata_serverName (hero_metadataText (ServerHeroCard_render el)) = shown.
Proof.
  cbv zeta. rewrite serverName_cases. unfold default_name_key.
  repeat split.
  - intros explicit ->. reflexivity.
  - intros -> ->. reflexivity.
  - intros -> ->. reflexivity.
Qed.

(** C10: a server item whose name is the empty string is displayed with the
    empty string as its name, in the row card and in the hero card; the
    localized default is what a card shows, whatever its localizer, only
    for an item whose name is null or undefined. *)
Theorem empty_name_is_displayed (item : ServerListItem) :
  (name item = Some "" ->
   forall el, server el = item ->
     serverName (messages (getSharedComponents el)) = "" /\
     metadata_serverName (row_metadataText (ServerRowCard_render el)) = "" /\
     metadata_serverName (hero_metadataText (ServerHeroCard_render el)) = "") /\
  ((forall el, server el = item ->
      serverName (messages (getSharedComponents el)) =
      localizer el (default_name_key item)) <->
   name item = None).
Proof.
  split.
  - intros H el <-. change (let shown :=
      serverName (messages (getSharedComponents el)) in
      shown = "" /\ shown = "" /\ shown = ""). cbv zeta.
    rewrite serverName_cases, H. auto.
  - split.
    + intro H. destruct (name item) as [explicit |] eqn:E; [| reflexivity].
      pose (a := {| server := item; rootPath := "";
                    localizer := fun _ => "a"; menu := @createRef Menu |}).
      pose (b := {| server := item; rootPath := "";
                    localizer := fun _ => "b"; menu := @createRef Menu |}).
      pose proof (H a eq_refl) as Ha. pose proof (H b eq_refl) as Hb.
      rewrite serverName_cases in Ha, Hb. simpl in Ha, Hb.
      rewrite E in Ha, Hb. rewrite Ha in Hb. discriminate Hb.
    + intros H el <-. rewrite serverName_cases, H. reflexivity.
Qed.

Lemma hasErrorMessage_true (item : ServerListItem) :
  hasErrorMessage item = true <-> exists k, error_key item k.
Proof.
  unfold hasErrorMessage, error_key.
  destruct (errorMessageId item) as [[| c rest] |]; simpl; split.
  - discriminate.
  - intros [k [[= <-] H]]. contradiction.
  - intros _. eexists; split; [reflexivity | discriminate].
  - reflexivity.
  - discriminate.
  - intros [k [H _]]. discriminate H.
Qed.

Lemma error_cases el :
  error (messages (getSharedComponents el)) =
  match errorMessageId (server el) with
  | Some (String c rest) => JSValue (localizer el (String c rest))
  | _ => JSFalse
  end.
Proof.
  simpl. unfold hasErrorMessage.
  destruct (errorMessageId (server el)) as [[| c rest] |]; reflexivity.
Qed.

(** C3, as the code has it: for a server item whose errorMessageId is a
    string that is not empty, the error text of the footer is the
    localizer applied to errorMessageId, in the row card and in the hero
    card, and the error hole is filled from the localizer for such items
    only; an errorMessageId that is the empty string is shown like an
    absent one. *)
Theorem error_text_of_key el :
  let row_hole := footer_error (row_footer (ServerRowCard_render el)) in
  let hero_hole := footer_error (hero_footer (ServerHeroCard_render el)) in
  (forall k, error_key (server el) k ->
     child_text row_hole = localizer el k /\
     child_text hero_hole = localizer el k) /\
  (forall text,
     row_hole = JSValue text \/ hero_hole = JSValue text ->
     exists k, error_key (server el) k /\ text = localizer el k) /\
  (forall other : ServerListItemElement (Menu := Menu),
     errorMessageId (server el) = Some "" ->
     errorMessageId (server other) = None ->
     child_text row_hole =
     child_text (footer_error (row_footer (ServerRowCard_render other))) /\
     child_text hero_hole =
     child_text (footer_error (hero_footer (ServerHeroCard_render other)))).
Proof.
  cbv zeta.
  change (footer_error (row_footer (ServerRowCard_render el)))
    with (error (messages (getSharedComponents el))).
  change (footer_error (hero_footer (ServerHeroCard_render el)))
    with (error (messages (getSharedComponents el))).
  rewrite error_cases. unfold error_key.
  split; [| split].
  - intros k [H Hk]. rewrite H.
    destruct k; [contradiction | auto].
  - intros text H.
    destruct (errorMessageId (server el)) as [[| c rest] |];
      destruct H as [H | H]; try discriminate H;
      injection H as <-; eexists; repeat split; discriminate.
  - intros other H Hother. rewrite H.
    change (footer_error (row_footer (ServerRowCard_render other)))
      with (error (messages (getSharedComponents other))).
    change (footer_error (hero_footer (ServerHeroCard_render other)))
      with (error (messages (getSharedComponents other))).
    rewrite error_cases, Hother. auto.
Qed.

(** C4, as the code has it: the connect/disconnect button of the footer is
    disabled if and only if errorMessageId is set to a string that is not
    empty, in the row card and in the hero card. *)
Theorem button_disabled_iff_key_not_empty el :
  (footer_button_disabled (row_footer (ServerRowCard_render el)) = true <->
   exists k, error_key (server el) k) /\
  (footer_button_disabled (hero_footer (ServerHeroCard_render el)) = true <->
   exists k, error_key (server el) k).
Proof.
  split; simpl; apply hasErrorMessage_true.
Qed.

(** C2, as the code has it: in the hero card, for a server item whose
    errorMessageId is a string that is not empty, the click binding of
    the connection indicator is [false], and a click on the indicator
    makes no call and dispatches no event. *)
Theorem hero_click_suppressed_by_error el (k : string) :
  error_key (server el) k ->
  let bound := hero_indicator_click (ServerHeroCard_render el) in
  bound = JSFalse /\ calls (click bound) = [] /\ dispatched (click bound) = [].
Proof.
  intros [H Hk]. cbv zeta. simpl. rewrite H.
  destruct k; [contradiction |]. simpl. auto.
Qed.

(** C8: for two server items that differ only in the disabled field, the
    messages, the dispatchers and the shared elements are the same, and so
    are what ServerRowCard and ServerHeroCard render. *)
Theorem disabled_is_not_read el (a b : ServerListItem) :
  same_but_disabled a b ->
  getSharedComponents (with_server el a) =
  getSharedComponents (with_server el b) /\
  ServerRowCard_render (with_server el a) =
  ServerRowCard_render (with_server el b) /\
  ServerHeroCard_render (with_server el a) =
  ServerHeroCard_render (with_server el b).
Proof.
  destruct a as [da ea oa aa ia na ca], b as [db eb ob ab ib nb cb].
  unfold same_but_disabled; simpl.
  intros (-> & -> & -> & -> & -> & ->).
  repeat split.
Qed.

(** ** Further properties of the cards *)

(** X1: no two members of ServerListItemEvent have the same string value,
    so a listener can tell the four requests apart by the event type. *)
Theorem ServerListItemEvent_value_inj (a b : ServerListItemEvent) :
  ServerListItemEvent_value a = ServerListItemEvent_value b <-> a = b.
Proof.
  split; [| intros ->; reflexivity].
  destruct a, b; simpl; intro H; try reflexivity; discriminate H.
Qed.

(** X2: in the footer the error hole holds a string exactly when the
    connect/disconnect button is disabled, and holds [false] exactly when
    the button is enabled. *)
Theorem footer_error_with_disabled_button el :
  let foot := footer (elements (getSharedComponents el)) in
  ((exists text, footer_error foot = JSValue text) <->
   footer_button_disabled foot = true) /\
  (footer_error foot = JSFalse <-> footer_button_disabled foot = false).
Proof.
  cbv zeta.
  change (footer_error (footer (elements (getSharedComponents el))))
    with (error (messages (getSharedComponents el))).
  rewrite error_cases. simpl. unfold hasErrorMessage.
  destruct (errorMessageId (server el)) as [[| c rest] |]; simpl;
    repeat split; intro H; try reflexivity; try discriminate H.
  - destruct H as [text H]. discriminate H.
  - eexists; reflexivity.
  - destruct H as [text H]. discriminate H.
Qed.

(** X3: in the hero card the click binding of the connection indicator is
    [false] exactly when the button of the footer is disabled; when the
    button is enabled, the indicator is bound to the very listener of the
    button. *)
Theorem hero_click_follows_button el :
  let hero := ServerHeroCard_render el in
  (hero_indicator_click hero = JSFalse <->
   footer_button_disabled (hero_footer hero) = true) /\
  (hero_indicator_click hero = JSValue (footer_button_click (hero_footer hero))
   <-> footer_button_disabled (hero_footer hero) = false).
Proof.
  cbv zeta. simpl. unfold hasErrorMessage.
  destruct (Boolean (errorMessageId (server el))); simpl;
    repeat split; intro H; try reflexivity; discriminate H.
Qed.

(** X4: the button says what it does.  Its click dispatches one event, a
    ConnectPressed or a DisconnectPressed, and its label is the localizer
    applied to 'disconnect-button-label' for a DisconnectPressed and to
    'connect-button-label' for a ConnectPressed; the hero card gives the
    same label to the indicator as its id. *)
Theorem button_label_names_its_action el :
  let foot := footer (elements (getSharedComponents el)) in
  exists member,
    (member = CONNECT \/ member = DISCONNECT) /\
    map type (dispatched (footer_button_click foot tt)) =
    [ServerListItemEvent_value member] /\
    footer_button_label foot =
    localizer el
      (match member with
       | DISCONNECT => "disconnect-button-label"
       | _ => "connect-button-label"
       end) /\
    hero_indicator_id (ServerHeroCard_render el) = footer_button_label foot.
Proof.
  cbv zeta. unfold dispatched.
  change (footer_button_click (footer (elements (getSharedComponents el))))
    with (connectToggle (dispatchers (getSharedComponents el))).
  rewrite connectToggle_calls. simpl.
  destruct (isConnectedState (connectionState (server el)));
    [exists DISCONNECT | exists CONNECT]; simpl; auto.
Qed.

(** X5: the menu of a card depends on the server item only through its id:
    two cards with the same localizer and menu ref around items with the
    same id bind the same menu, whatever the error, the name or the
    connection state of the items. *)
Theorem menu_depends_on_id_only el (a b : ServerListItem) :
  id a = id b ->
  menuTemplate (elements (getSharedComponents (with_server el a))) =
  menuTemplate (elements (getSharedComponents (with_server el b))).
Proof.
  intro H. simpl. rewrite H. reflexivity.
Qed.

(** X6: every click listener a card binds (rename, forget, the button of
    the footer) raises exactly one request for the server item and makes no
    other call; a click on the indicator of the hero card and a key press
    on it dispatch at most one event, and only requests for the item. *)
Theorem listeners_raise_requests_only el (event : KeyboardEvent) :
  let row := ServerRowCard_render el in
  let hero := ServerHeroCard_render el in
  Forall (raises_one_request (server el)) (row_click_listeners row) /\
  Forall (raises_one_request (server el)) (hero_click_listeners hero) /\
  (calls (click (hero_indicator_click hero)) = [] \/
   exists e, calls (click (hero_indicator_click hero)) = [dispatchEvent e] /\
             request_for (server el) e) /\
  length (dispatched (keydown (hero_indicator_keydown hero) event)) <= 1 /\
  Forall (request_for (server el))
    (dispatched (keydown (hero_indicator_keydown hero) event)).
Proof.
  cbv zeta.
  assert (Hrename : raises_one_request (server el)
                      (beginRename (dispatchers (getSharedComponents el)))).
  { eexists; split; [reflexivity |]. unfold request_for; simpl; tauto. }
  assert (Hforget : raises_one_request (server el)
                      (forget (dispatchers (getSharedComponents el)))).
  { eexists; split; [reflexivity |]. unfold request_for; simpl; tauto. }
  assert (Htoggle : raises_one_request (server el)
                      (connectToggle (dispatchers (getSharedComponents el)))).
  { eexists; split; [apply connectToggle_calls |].
    unfold request_for; simpl.
    destruct (isConnectedState (connectionState (server el))); simpl; tauto. }
  split; [| split; [| split]].
  - repeat apply Forall_cons; try apply Forall_nil; assumption.
  - repeat apply Forall_cons; try apply Forall_nil; assumption.
  - simpl. destruct (Boolean (errorMessageId (server el))); simpl.
    + left; reflexivity.
    + right. exact Htoggle.
  - destruct Htoggle as [e [He Hreq]].
    unfold keydown, dispatched. simpl.
    unfold connectToggleKeyboardDispatcher. simpl.
    destruct (String.eqb (key event) "Enter"); simpl.
    + split; [auto |]. apply Forall_cons; [| apply Forall_nil].
      rewrite connectToggle_calls in He. injection He as <-. exact Hreq.
    + split; [auto | apply Forall_nil].
Qed.

(** X7: the keyboard handler of the hero card depends on the server item
    only through its id and its connection state: for two items that agree
    on both, the indicator is bound to the same handler, whether or not
    either item has an error. *)
Theorem keydown_depends_on_id_and_state el (a b : ServerListItem) :
  id a = id b ->
  connectionState a = connectionState b ->
  hero_indicator_keydown (ServerHeroCard_render (with_server el a)) =
  hero_indicator_keydown (ServerHeroCard_render (with_server el b)).
Proof.
  intros Hid Hstate. simpl. unfold getDispatchers; simpl.
  rewrite Hid, Hstate. reflexivity.
Qed.

(** X9: the click binding of the menu button is the unbound [show] method
    of the menu class when the ref holds a menu element at the time the
    card renders, whichever element that is, and is undefined when the
    ref holds none; a card as constructed holds none, so its menu button
    is rendered without a click binding. *)
Theorem menu_button_needs_the_ref el (item : ServerListItem)
        (path : string) (lookup : string -> string) :
  let bound e :=
    menu_button_click (menuTemplate (elements (getSharedComponents e))) in
  (bound el = Some show <-> exists m, value (menu el) = Some m) /\
  (bound el = None <-> value (menu el) = None) /\
  bound (ServerRowCard item path lookup) = None /\
  bound (ServerHeroCard item path lookup) = None /\
  menu_button_click (row_menu (ServerRowCard_render el)) = bound el /\
  menu_button_click (hero_menu (ServerHeroCard_render el)) = bound el.
Proof.
  cbv zeta. simpl.
  destruct (value (menu el)) as [m' |]; repeat split;
    intro H; try reflexivity; try discriminate H.
  - exists m'. reflexivity.
  - destruct H as [m H]. discriminate H.
Qed.

(** X10: for the same element the row card and the hero card hold the same
    metadata text, the same menu and the same footer, and give the
    indicator the same connection state and root path. *)
Theorem cards_share_their_parts el :
  let row := ServerRowCard_render el in
  let hero := ServerHeroCard_render el in
  row_metadataText row = hero_metadataText hero /\
  row_menu row = hero_menu hero /\
  row_footer row = hero_footer hero /\
  row_indicator_connection_state row = hero_indicator_connection_state hero /\
  row_indicator_root_path row = hero_indicator_root_path hero /\
  hero_label_for hero = hero_indicator_id hero /\
  hero_label_text hero = hero_indicator_title hero.
Proof.
  cbv zeta. repeat split.
Qed.

(** Case analysis on what decides the keys a card looks up. *)
Ltac card_cases el :=
  destruct el as [[dis err outline addr ident nm state] path loc mref];
  unfold hero_keys, shared_keys, default_name_key; simpl;
  destruct nm as [explicit |];
  destruct err as [[| c rest] |];
  destruct outline;
  destruct (isConnectedState state) eqn:Estate; simpl.

(** X8: what a card renders depends on its localizer through the keys it
    looks up and no others.  Rendered with another lookup function, the
    row card is unchanged if and only if the function agrees with the
    localizer on the default-name key (when the item has no name), the
    error key (when it is not empty), the key of the button label,
    'server-rename' and 'server-forget'; the hero card, if and only if it
    also agrees on the caption key of the connection state. *)
Theorem cards_read_their_keys_only el (lookup : string -> string) :
  (ServerRowCard_render (with_localizer el lookup) = ServerRowCard_render el
   <-> Forall (fun k => lookup k = localizer el k) (shared_keys (server el)))
  /\
  (ServerHeroCard_render (with_localizer el lookup) = ServerHeroCard_render el
   <-> Forall (fun k => lookup k = localizer el k) (hero_keys (server el))).
Proof.
  split; split.
  - intro H.
    pose proof (f_equal (fun t => metadata_serverName (row_metadataText t)) H)
      as Hname.
    pose proof (f_equal (fun t => footer_error (row_footer t)) H) as Herror.
    pose proof (f_equal (fun t => footer_button_label (row_footer t)) H)
      as Hlabel.
    pose proof (f_equal (fun t => menu_rename_text (row_menu t)) H) as Hrename.
    pose proof (f_equal (fun t => menu_forget_text (row_menu t)) H) as Hforget.
    clear H. revert Hname Herror Hlabel Hrename Hforget.
    card_cases el; unfold hasErrorMessage; simpl;
      intros Hname Herror Hlabel Hrename Hforget;
      try injection Herror as Herror;
      repeat (apply Forall_cons; [assumption |]); apply Forall_nil.
  - revert lookup. card_cases el; intros lookup H;
      repeat (apply Forall_cons_iff in H; destruct H as [? H]);
      unfold ServerRowCard_render, getSharedComponents, getMessages,
        hasErrorMessage; simpl in *;
      rewrite ?Estate;
      repeat match goal with
             | E : lookup _ = _ |- _ => rewrite ?E; clear E
             end;
      reflexivity.
  - intro H.
    pose proof (f_equal (fun t => hero_label_text t) H) as Hcaption.
    pose proof (f_equal (fun t => metadata_serverName (hero_metadataText t)) H)
      as Hname.
    pose proof (f_equal (fun t => footer_error (hero_footer t)) H) as Herror.
    pose proof (f_equal (fun t => footer_button_label (hero_footer t)) H)
      as Hlabel.
    pose proof (f_equal (fun t => menu_rename_text (hero_menu t)) H)
      as Hrename.
    pose proof (f_equal (fun t => menu_forget_text (hero_menu t)) H)
      as Hforget.
    clear H. revert Hcaption Hname Herror Hlabel Hrename Hforget.
    card_cases el; unfold hasErrorMessage; simpl;
      intros Hcaption Hname Herror Hlabel Hrename Hforget;
      try injection Herror as Herror;
      repeat (apply Forall_cons; [assumption |]); apply Forall_nil.
  - revert lookup. card_cases el; intros lookup H;
      repeat (apply Forall_cons_iff in H; destruct H as [? H]);
      unfold ServerHeroCard_render, getSharedComponents, getMessages,
        hasErrorMessage; simpl in *;
      rewrite ?Estate;
      repeat match goal with
             | E : lookup _ = _ |- _ => rewrite ?E; clear E
             end;
      reflexivity.
Qed.

End ServerCardProperties.

(** ** The cards on sample inputs *)

Module Sample_runs.
Import Sample.

Example toggle_connecting :
  dispatched (toggle (item None None connecting false)) =
  [request DISCONNECT].
Proof. reflexivity. Qed.

Example toggle_connected :
  dispatched (toggle (item None None connected false)) =
  [request DISCONNECT].
Proof. reflexivity. Qed.

Example toggle_reconnecting :
  dispatched (toggle (item None None reconnecting false)) =
  [request DISCONNECT].
Proof. reflexivity. Qed.

Example toggle_disconnecting :
  dispatched (toggle (item None None disconnecting false)) =
  [request CONNECT].
Proof. reflexivity. Qed.

Example toggle_disconnected :
  dispatched (toggle (item None None disconnected false)) =
  [request CONNECT].
Proof. reflexivity. Qed.

Example messages_without_name_or_error :
  messages (getSharedComponents (card (item None None connected false))) =
  {| serverName := "[server-default-name-outline]";
     error := JSFalse;
     connectButton := "[disconnect-button-label]" |}.
Proof. reflexivity. Qed.

Example messages_with_name_and_error :
  messages
    (getSharedComponents
       (card (item (Some "error-timeout") (Some "home") disconnected false))) =
  {| serverName := "home";
     error := JSValue "[error-timeout]";
     connectButton := "[connect-button-label]" |}.
Proof. reflexivity. Qed.

Example hero_status_text :
  hero_label_text
    (ServerHeroCard_render (card (item None None reconnecting false))) =
  "[reconnecting-server-state]".
Proof. reflexivity. Qed.

Example keydown_Enter_calls :
  calls
    (keydown
       (hero_indicator_keydown
          (ServerHeroCard_render (card (item None None connected false))))
       Enter) =
  [preventDefault Enter; stopImmediatePropagation Enter;
   dispatchEvent (request DISCONNECT)].
Proof. reflexivity. Qed.

Example keydown_Space_calls :
  calls
    (keydown
       (hero_indicator_keydown
          (ServerHeroCard_render (card (item None None connected false))))
       Space) =
  [preventDefault Space; stopImmediatePropagation Space].
Proof. reflexivity. Qed.

(** The keyboard handler does not look at the error: with an error key
    set, Enter still dispatches the toggle, where a click does not. *)
Example keydown_Enter_with_error :
  let hero :=
    ServerHeroCard_render
      (card (item (Some "error-timeout") None disconnected false)) in
  hero_indicator_click hero = JSFalse /\
  footer_button_disabled (hero_footer hero) = true /\
  dispatched (keydown (hero_indicator_keydown hero) Enter) =
  [request CONNECT].
Proof. repeat split. Qed.

(** The rename entry raises a bubbling, composed ShowServerRename; called
    bare it is heard on the window and on no element around the card. *)
Example rename_is_heard_on_the_window_only :
  let raised :=
    dispatched
      (beginRename
         (dispatchers
            (getSharedComponents (card (item None None connected false))))
         tt) in
  raised = [request RENAME] /\
  map (fun e => delivered (receiver dispatcher_call) e containing_element true)
      raised = [false] /\
  map (fun e => delivered (receiver dispatcher_call) e global_window true)
      raised = [true] /\
  map (fun e => delivered (receiver method_call) e containing_element true)
      raised = [true].
Proof. repeat split. Qed.

End Sample_runs.

(** ** Inputs that settle the claims *)

(** C2 fails as stated: with errorMessageId set to the empty string a click
    on the indicator of the hero card dispatches ConnectPressed, and with
    errorMessageId set to 'error-timeout' the Enter key dispatches
    ConnectPressed. *)
Lemma hero_toggle_runs_with_error_key :
  let blank :=
    Sample.card (Sample.item (Some "") None disconnected false) in
  let failed :=
    Sample.card (Sample.item (Some "error-timeout") None disconnected false) in
  errorMessageId (server blank) = Some "" /\
  dispatched (click (hero_indicator_click (ServerHeroCard_render blank))) =
  [Sample.request CONNECT] /\
  errorMessageId (server failed) = Some "error-timeout" /\
  dispatched
    (keydown (hero_indicator_keydown (ServerHeroCard_render failed))
       Sample.Enter) =
  [Sample.request CONNECT].
Proof. repeat split. Qed.

(** The click on the hero card's indicator with 'error-timeout' set. *)
Lemma hero_click_suppressed_by_error_at_timeout :
  let failed :=
    Sample.card (Sample.item (Some "error-timeout") None disconnected false) in
  error_key (server failed) "error-timeout" /\
  hero_indicator_click (ServerHeroCard_render failed) = JSFalse /\
  calls (click (hero_indicator_click (ServerHeroCard_render failed))) = [] /\
  dispatched (click (hero_indicator_click (ServerHeroCard_render failed))) = [].
Proof.
  assert (H : error_key
                (server
                   (Sample.card
                      (Sample.item (Some "error-timeout") None disconnected
                         false)))
                "error-timeout")
    by (split; [reflexivity | discriminate]).
  split; [exact H |].
  exact (hero_click_suppressed_by_error _ H).
Defined.

(** C3 fails as stated: with errorMessageId set to the empty string the
    localizer is not applied to it, and with errorMessageId absent the
    error hole still yields a text, 'false'. *)
Lemma error_text_without_error_key :
  let blank :=
    Sample.card (Sample.item (Some "") None disconnected false) in
  let plain :=
    Sample.card (Sample.item None None disconnected false) in
  errorMessageId (server blank) = Some "" /\
  localizer blank "" = "[]" /\
  footer_error (row_footer (ServerRowCard_render blank)) = JSFalse /\
  child_text (footer_error (row_footer (ServerRowCard_render blank))) =
  "false" /\
  errorMessageId (server plain) = None /\
  child_text (footer_error (row_footer (ServerRowCard_render plain))) =
  "false" /\
  child_text (footer_error (hero_footer (ServerHeroCard_render plain))) =
  "false".
Proof. repeat split. Qed.

(** The error text of both cards with 'error-timeout' set. *)
Lemma error_text_of_key_at_timeout :
  let failed :=
    Sample.card (Sample.item (Some "error-timeout") None disconnected false) in
  error_key (server failed) "error-timeout" /\
  child_text (footer_error (row_footer (ServerRowCard_render failed))) =
  "[error-timeout]" /\
  child_text (footer_error (hero_footer (ServerHeroCard_render failed))) =
  "[error-timeout]".
Proof.
  assert (H : error_key
                (server
                   (Sample.card
                      (Sample.item (Some "error-timeout") None disconnected
                         false)))
                "error-timeout")
    by (split; [reflexivity | discriminate]).
  split; [exact H |].
  exact (proj1
           (error_text_of_key
              (Sample.card
                 (Sample.item (Some "error-timeout") None disconnected false)))
           "error-timeout" H).
Defined.

(** C4 fails as stated: with errorMessageId set to the empty string the
    button of the footer is not disabled, in either card. *)
Lemma empty_error_key_leaves_button_enabled :
  let blank :=
    Sample.card (Sample.item (Some "") None disconnected false) in
  errorMessageId (server blank) = Some "" /\
  footer_button_disabled (row_footer (ServerRowCard_render blank)) = false /\
  footer_button_disabled (hero_footer (ServerHeroCard_render blank)) = false.
Proof. repeat split. Qed.

(** C6 fails as stated: with a localizer that has one text for both keys
    the label of a disconnected item is the localizer applied to
    'disconnect-button-label'. *)
Lemma button_label_with_one_text :
  let el :=
    with_localizer
      (Sample.card (Sample.item None None disconnected false))
      Sample.one_text in
  connectionState (server el) = disconnected /\
  isConnectedState (connectionState (server el)) = false /\
  connectButton (messages (getSharedComponents el)) =
  localizer el "disconnect-button-label" /\
  footer_button_label (row_footer (ServerRowCard_render el)) =
  localizer el "disconnect-button-label" /\
  footer_button_label (hero_footer (ServerHeroCard_render el)) =
  localizer el "disconnect-button-label".
Proof. repeat split. Qed.

(** The label of a connected item under a localizer that tells the two
    keys apart. *)
Lemma button_label_by_state_at_sample :
  let el := Sample.card (Sample.item None None connected false) in
  localizer el "disconnect-button-label" <>
  localizer el "connect-button-label" /\
  footer_button_label (row_footer (ServerRowCard_render el)) =
  "[disconnect-button-label]" /\
  (connectButton (messages (getSharedComponents el)) =
   localizer el "disconnect-button-label" <->
   connected_ish (connectionState (server el))).
Proof.
  assert (H : localizer
                (Sample.card (Sample.item None None connected false))
                "disconnect-button-label" <>
              localizer
                (Sample.card (Sample.item None None connected false))
                "connect-button-label")
    by discriminate.
  split; [exact H |]. split; [reflexivity |].
  exact (proj1
           (proj2 (proj2 (proj2 (proj2
              (button_label_by_state
                 (Sample.card (Sample.item None None connected false))))))
              H)).
Defined.

(** The name shown for an item named 'home', and for one without a name. *)
Lemma serverName_explicit_or_default_at_home :
  serverName
    (messages
       (getSharedComponents
          (Sample.card (Sample.item None (Some "home") connected false)))) =
  "home" /\
  serverName
    (messages
       (getSharedComponents
          (Sample.card (Sample.item None None connected false)))) =
  "[server-default-name-outline]".
Proof.
  split.
  - exact (proj1
             (serverName_explicit_or_default
                (Sample.card (Sample.item None (Some "home") connected false)))
             "home" eq_refl).
  - exact (proj1 (proj2
             (serverName_explicit_or_default
                (Sample.card (Sample.item None None connected false))))
             eq_refl eq_refl).
Defined.

(** The name shown for an item whose name is the empty string, next to the
    default that is not taken. *)
Lemma empty_name_is_displayed_at_sample :
  let unnamed :=
    Sample.card (Sample.item None (Some "") connected false) in
  serverName (messages (getSharedComponents unnamed)) = "" /\
  localizer unnamed (default_name_key (server unnamed)) =
  "[server-default-name-outline]".
Proof.
  split; [| reflexivity].
  exact (proj1
           (proj1
              (empty_name_is_displayed
                 (Sample.item None (Some "") connected false))
              eq_refl
              (Sample.card (Sample.item None (Some "") connected false))
              eq_refl)).
Defined.

(** Two items that differ in [disabled] and nothing else. *)
Lemma disabled_is_not_read_at_sample :
  let enabled := Sample.item (Some "error-timeout") None connected false in
  let greyed := Sample.item (Some "error-timeout") None connected true in
  disabled enabled <> disabled greyed /\
  same_but_disabled enabled greyed /\
  getSharedComponents (Sample.card enabled) =
  getSharedComponents (Sample.card greyed) /\
  ServerRowCard_render (Sample.card enabled) =
  ServerRowCard_render (Sample.card greyed) /\
  ServerHeroCard_render (Sample.card enabled) =
  ServerHeroCard_render (Sample.card greyed).
Proof.
  assert (H : same_but_disabled
                (Sample.item (Some "error-timeout") None connected false)
                (Sample.item (Some "error-timeout") None connected true))
    by (repeat split).
  split; [discriminate |].
  split; [exact H |].
  exact (disabled_is_not_read
           (Sample.card
              (Sample.item (Some "error-timeout") None connected false))
           H).
Defined.

(** ** Sample inputs for the further properties *)

(** Two items with the same id: one connected, named and in error, the
    other disconnected, unnamed and without error.  Their menus are the
    same. *)
Lemma menu_depends_on_id_only_at_sample :
  let failed := Sample.item (Some "error-timeout") (Some "home") connected false in
  let plain := Sample.item None None disconnected false in
  id failed = id plain /\
  menuTemplate (elements (getSharedComponents (Sample.card failed))) =
  menuTemplate (elements (getSharedComponents (Sample.card plain))).
Proof.
  split; [reflexivity |].
  exact (menu_depends_on_id_only
           (Sample.card (Sample.item None None disconnected false))
           (Sample.item (Some "error-timeout") (Some "home") connected false)
           (Sample.item None None disconnected false)
           eq_refl).
Defined.

(** Two disconnected items with the same id, one of them in error: the
    hero card binds the same keyboard handler, and Enter dispatches
    ConnectPressed for both. *)
Lemma keydown_depends_on_id_and_state_at_sample :
  let failed := Sample.item (Some "error-timeout") None disconnected false in
  let plain := Sample.item None None disconnected false in
  hero_indicator_keydown (ServerHeroCard_render (Sample.card failed)) =
  hero_indicator_keydown (ServerHeroCard_render (Sample.card plain)) /\
  dispatched
    (keydown (hero_indicator_keydown (ServerHeroCard_render (Sample.card failed)))
       Sample.Enter) =
  [Sample.request CONNECT].
Proof.
  split; [| reflexivity].
  exact (keydown_depends_on_id_and_state
           (Sample.card (Sample.item None None disconnected false))
           (Sample.item (Some "error-timeout") None disconnected false)
           (Sample.item None None disconnected false)
           eq_refl eq_refl).
Defined.

(** A row card around a named item does not show a change of the default
    name; a row card around an unnamed item does. *)
Lemma cards_read_their_keys_only_at_sample :
  let named := Sample.card (Sample.item None (Some "home") connected false) in
  let unnamed := Sample.card (Sample.item None None connected false) in
  ServerRowCard_render (with_localizer named Sample.no_default_name) =
  ServerRowCard_render named /\
  metadata_serverName
    (row_metadataText
       (ServerRowCard_render (with_localizer unnamed Sample.no_default_name))) = "?" /\
  metadata_serverName (row_metadataText (ServerRowCard_render unnamed)) =
  "[server-default-name-outline]".
Proof.
  split; [| split; reflexivity].
  apply (proj2
           (proj1
              (cards_read_their_keys_only
                 (Sample.card (Sample.item None (Some "home") connected false))
                 Sample.no_default_name))).
  repeat (apply Forall_cons; [reflexivity |]). apply Forall_nil.
Defined.
